(** * baselines.common.cmd_util: environment construction and residual
      command-line parsing

    A shallow embedding of [src/baselines/common/cmd_util.py] and the
    properties its specification states about it.

    - Python [int] is [Z] (unbounded), [float] is a binary64 [float],
      [str] is [string], [None]-able values are [option]s, a [dict] keyed
      by strings is a [gmap string _].
    - A raised exception is the [Raise] outcome of a small monad that also
      records, in order, the calls made on external collaborators (the
      constructors of environments and adapters, the environment's [seed]
      and [update_params] methods, [set_global_seeds]).
    - The argument-parser builders only declare options on [argparse] and
      are left out. *)

From Stdlib Require Import ZArith String Ascii List Bool Floats.
From Stdlib Require Import DecimalString DecimalPos DecimalZ.
From stdpp Require Import base gmap strings list.

Local Open Scope string_scope.
Local Open Scope Z_scope.

(** ** Python string primitives used by the module *)

Module PyStr.

(** [s.startswith(p)] *)
Definition startswith (s p : string) : bool := String.prefix p s.

(** [c in s] for a one-character [c] *)
Fixpoint contains (c : ascii) (s : string) : bool :=
  match s with
  | EmptyString => false
  | String a s' => if Ascii.eqb a c then true else contains c s'
  end.

(** [s[n:]] *)
Fixpoint slice_from (n : nat) (s : string) : string :=
  match n, s with
  | O, _ => s
  | S _, EmptyString => EmptyString
  | S n', String _ s' => slice_from n' s'
  end.

(** [s.split(c)] for a one-character separator: every occurrence of [c]
    cuts, so a string with [k] separators gives [k + 1] pieces. *)
Fixpoint split (c : ascii) (s : string) : list string :=
  match s with
  | EmptyString => [EmptyString]
  | String a s' =>
      if Ascii.eqb a c then EmptyString :: split c s'
      else match split c s' with
           | h :: t => String a h :: t
           | [] => [String a EmptyString]
           end
  end.

(** [s.endswith(p)] for a one-character [p] *)
Fixpoint endswith_char (c : ascii) (s : string) : bool :=
  match s with
  | EmptyString => false
  | String a EmptyString => Ascii.eqb a c
  | String _ s' => endswith_char c s'
  end.

(** [str(n)] for an [int]: decimal digits, a leading [-] when negative. *)
Definition of_int (n : Z) : string := NilZero.string_of_int (Z.to_int n).

(** The text left of the first [c] (all of [s] when there is none) and the
    whole remainder right of it: what a split made once at the first [c]
    gives. *)
Fixpoint before (c : ascii) (s : string) : string :=
  match s with
  | EmptyString => EmptyString
  | String a s' => if Ascii.eqb a c then EmptyString else String a (before c s')
  end.

Fixpoint after (c : ascii) (s : string) : string :=
  match s with
  | EmptyString => EmptyString
  | String a s' => if Ascii.eqb a c then s' else after c s'
  end.

(** [bool(s)]: the empty string is the only falsy one. *)
Definition truthy (s : string) : bool :=
  match s with EmptyString => false | _ => true end.

End PyStr.

(** ** Exceptions and the outcome of a call *)

Inductive Exception : Type :=
  | AttributeError (msg : string)
  | ImportError (msg : string)
  | IndexError
  | UnboundLocalError (name : string)
  | EnvError (env_id : string).

Inductive Outcome (A : Type) : Type :=
  | Return (a : A)
  | Raise (e : Exception).
Arguments Return {A} a.
Arguments Raise {A} e.

(** ** The residual argument parser *)

Module Residual.

(** The locals of [parse_unknown_args]; [key] is unbound until the first
    flag token has been seen. *)
Record Locals : Type := mkLocals {
  retval : gmap string string;
  key : option string;
  preceded_by_key : bool
}.

Definition init : Locals :=
  {| retval := ∅; key := None; preceded_by_key := false |}.

(** One iteration of the [for arg in args] loop. *)
Definition body (st : Locals) (arg : string) : Outcome Locals :=
  if PyStr.startswith arg "--" then
    if PyStr.contains "=" arg then
      match PyStr.split "=" arg with
      | p0 :: p1 :: _ =>
          let k := PyStr.slice_from 2 p0 in
          Return {| retval := <[k := p1]> (retval st);
                    key := Some k;
                    preceded_by_key := preceded_by_key st |}
      | _ => Raise IndexError
      end
    else
      Return {| retval := retval st;
                key := Some (PyStr.slice_from 2 arg);
                preceded_by_key := true |}
  else if preceded_by_key st then
    match key st with
    | Some k =>
        Return {| retval := <[k := arg]> (retval st);
                  key := key st;
                  preceded_by_key := false |}
    | None => Raise (UnboundLocalError "key")
    end
  else Return st.

Fixpoint loop (st : Locals) (args : list string) : Outcome Locals :=
  match args with
  | [] => Return st
  | arg :: rest =>
      match body st arg with
      | Return st' => loop st' rest
      | Raise e => Raise e
      end
  end.

Definition parse_unknown_args (args : list string)
  : Outcome (gmap string string) :=
  match loop init args with
  | Return st => Return (retval st)
  | Raise e => Raise e
  end.

End Residual.

(** The loop invariant: [key] is bound whenever [preceded_by_key] is set. *)
Definition key_bound (st : Residual.Locals) : Prop :=
  Residual.preceded_by_key st = true -> is_Some (Residual.key st).

(** The key a flag token names: the text left of its first [=] (the whole
    token when it has none), without its first two characters. *)
Definition flag_key (token : string) : string :=
  PyStr.slice_from 2 (PyStr.before "=" token).

(** The value a [--key=value] token carries in the result: the piece
    [split('=')] puts at index 1. *)
Definition flag_value (token : string) : string :=
  PyStr.before "=" (PyStr.after "=" token).

(** What the entries of the result can be made of, given the tokens read:
    a key is named by a flag token; a value is a token that is no flag, or
    the piece of a [--key=value] token. *)
Definition from_tokens (tokens : list string) (k v : string) : Prop :=
  (exists t, t ∈ tokens /\ PyStr.startswith t "--" = true /\ k = flag_key t)
  /\ ((v ∈ tokens /\ PyStr.startswith v "--" = false)
      \/ (exists t, t ∈ tokens /\ PyStr.startswith t "--" = true
                    /\ PyStr.contains "=" t = true /\ v = flag_value t)).

(** The invariant behind [from_tokens]: it holds of every entry, and the
    pending key is named by a flag token. *)
Definition entries_from (tokens : list string) (st : Residual.Locals) : Prop :=
  (forall k v, Residual.retval st !! k = Some v -> from_tokens tokens k v)
  /\ (forall k, Residual.key st = Some k ->
       exists t, t ∈ tokens /\ PyStr.startswith t "--" = true
                 /\ k = flag_key t).

(** ** Calls on external collaborators, in the order they are made *)

(** The values a keyword option can carry. *)
Inductive PyValue : Type :=
  | VNone
  | VBool (b : bool)
  | VInt (n : Z)
  | VFloat (x : float)
  | VStr (s : string).

Abbreviation Kwargs := (gmap string PyValue).

(** [retro.Actions] and the [state] argument of [make_retro]. *)
Inductive RetroActions : Type := ALL | FILTERED | DISCRETE | MULTI_DISCRETE.
Inductive RetroState : Type := State_DEFAULT | State_named (name : string).

(** An environment handle is the chain of constructor calls that built it:
    one of the three family constructors at the bottom, adapters above.
    A keyword argument a call leaves out is [None]. *)
Inductive Env : Type :=
  | make_atari (env_id : string)
  | make_retro (game : string) (max_episode_steps : Z)
               (use_restricted_actions : RetroActions) (state : RetroState)
  | gym_make (env_id : string)
  | FlattenDictWrapper (env : Env) (dict_keys : list string)
  | Monitor (env : Env) (filename : option string)
            (allow_early_resets : option bool)
            (info_keywords : option (list string))
  | wrap_deepmind (env : Env) (kwargs : Kwargs)
  | wrap_deepmind_retro (env : Env) (kwargs : Kwargs)
  | RewardScaler (env : Env) (scale : float).

Inductive Event : Type :=
  | Ev_new (env : Env)                   (* a constructor returned [env] *)
  | Ev_seed (env : Env) (seed : option Z)           (* [env.seed(seed)] *)
  | Ev_update_params (env : Env) (params : Kwargs)
                                         (* [env.update_params(params)] *)
  | Ev_set_global_seeds (seed : option Z).    (* [set_global_seeds(seed)] *)

(** What the module reads from its surroundings. *)
Record World : Type := mkWorld {
  (** the module global [MPI]: [None] after the [ImportError], else the
      rank [MPI.COMM_WORLD.Get_rank()] answers *)
  MPI : option Z;
  (** [logger.get_dir()] *)
  logger_get_dir : option string;
  (** whether [import retro] succeeds *)
  retro_installed : bool;
  (** whether the external constructor call that would build this handle
      returns (unknown identifiers and the like make it raise) *)
  constructs : Env -> bool;
  (** the keys of [env.observation_space] when it is a [gym.spaces.Dict] *)
  observation_dict_keys : Env -> option (list string)
}.

(** A computation: the events it caused, then its outcome. *)
Definition M (A : Type) : Type := (list Event * Outcome A)%type.

#[export] Instance M_ret : MRet M := fun A a => ([], Return a).

#[export] Instance M_bind : MBind M := fun A B f m =>
  match m with
  | (t, Return a) => let '(t', o) := f a in ((t ++ t')%list, o)
  | (t, Raise e) => (t, Raise e)
  end.

(** A method or function call on a collaborator ([env.seed],
    [env.update_params], [set_global_seeds]): recorded, and taken to
    return. Whether such a call can raise is outside the model, so what is
    proved about these calls is their order and arguments in a run that
    returns or that a constructor or the import stops. *)
Definition emit (ev : Event) : M unit := ([ev], Return tt).

Definition raise {A : Type} (e : Exception) : M A := ([], Raise e).

(** A call of an external constructor. It returns the handle or raises;
    which exception a failing constructor raises is not modelled, all of
    them are [EnvError]. *)
Definition new (w : World) (env : Env) : M Env :=
  if constructs w env then ([Ev_new env], Return env)
  else raise (EnvError "constructor raised").

(** ** cmd_util *)

(** [MPI.COMM_WORLD.Get_rank() if MPI else 0] *)
Definition rank_or_zero (w : World) : Z :=
  match MPI w with Some r => r | None => 0 end.

(** [MPI.COMM_WORLD.Get_rank()], with no guard *)
Definition Get_rank (w : World) : M Z :=
  match MPI w with
  | Some r => mret r
  | None =>
      raise (AttributeError "'NoneType' object has no attribute 'COMM_WORLD'")
  end.

(** [wrapper_kwargs or {}] *)
Definition kwargs_or_empty (wrapper_kwargs : option Kwargs) : Kwargs :=
  match wrapper_kwargs with
  | Some m => if decide (m = ∅) then ∅ else m
  | None => ∅
  end.

(** [posixpath.join(a, b)] *)
Definition os_path_join (a b : string) : string :=
  if PyStr.startswith b "/" then b
  else if negb (PyStr.truthy a) || PyStr.endswith_char "/" a then a ++ b
  else a ++ "/" ++ b.

(** [seed + k if seed is not None else None] *)
Definition offset_seed (seed : option Z) (k : Z) : option Z :=
  match seed with Some s => Some (s + k) | None => None end.

(** [logger.get_dir() and os.path.join(logger.get_dir(),
    str(mpi_rank) + '.' + str(subrank))] *)
Definition monitor_filename (w : World) (mpi_rank subrank : Z)
  : option string :=
  match logger_get_dir w with
  | None => None
  | Some d =>
      if PyStr.truthy d
      then Some (os_path_join d
                   (PyStr.of_int mpi_rank ++ "." ++ PyStr.of_int subrank))
      else Some d
  end.

(** [gamestate or retro.State.DEFAULT] *)
Definition gamestate_or_default (gamestate : option string) : RetroState :=
  match gamestate with
  | Some g => if PyStr.truthy g then State_named g else State_DEFAULT
  | None => State_DEFAULT
  end.

(** [reward_scale != 1] *)
Definition ne_one (reward_scale : float) : bool :=
  negb (PrimFloat.eqb reward_scale 1%float).

Definition make_env (w : World) (env_id env_type : string) (subrank : Z)
    (seed : option Z) (reward_scale : float) (gamestate : option string)
    (flatten_dict_observations : bool) (wrapper_kwargs : option Kwargs)
  : M Env :=
  let mpi_rank := rank_or_zero w in
  let wrapper_kwargs := kwargs_or_empty wrapper_kwargs in
  env ← (if String.eqb env_type "atari" then new w (make_atari env_id)
         else if String.eqb env_type "retro" then
           if retro_installed w then
             let gamestate := gamestate_or_default gamestate in
             let rad := DISCRETE in
             new w (make_retro env_id 10000 rad gamestate)
           else raise (ImportError "No module named 'retro'")
         else new w (gym_make env_id));
  env ← (if flatten_dict_observations then
           match observation_dict_keys w env with
           | Some keys => new w (FlattenDictWrapper env keys)
           | None => mret env
           end
         else mret env);
  emit (Ev_seed env (offset_seed seed subrank));;
  (if String.eqb env_id "priors-v0"
   then emit (Ev_update_params env wrapper_kwargs)
   else mret tt);;
  env ← new w (Monitor env (monitor_filename w mpi_rank subrank)
                      (Some true) None);
  env ← (if String.eqb env_type "atari"
         then new w (wrap_deepmind env wrapper_kwargs)
         else if String.eqb env_type "retro"
         then new w (wrap_deepmind_retro env wrapper_kwargs)
         else mret env);
  env ← (if ne_one reward_scale
         then new w (RewardScaler env reward_scale)
         else mret env);
  mret env.

Definition make_mujoco_env (w : World) (env_id : string) (seed : option Z)
    (reward_scale : float) : M Env :=
  rank ← Get_rank w;
  let myseed := offset_seed seed (1000 * rank) in
  emit (Ev_set_global_seeds myseed);;
  env ← new w (gym_make env_id);
  let lgd := logger_get_dir w in
  let logger_path :=
    match lgd with
    | None => None
    | Some d => Some (os_path_join d (PyStr.of_int rank))
    end in
  env ← new w (Monitor env logger_path (Some true) None);
  emit (Ev_seed env seed);;
  env ← (if negb (PrimFloat.eqb reward_scale 1%float)
         then new w (RewardScaler env reward_scale)
         else mret env);
  mret env.

(** [logger.get_dir() and os.path.join(logger.get_dir(), str(rank))] *)
Definition robotics_monitor_filename (w : World) (rank : Z) : option string :=
  match logger_get_dir w with
  | None => None
  | Some d =>
      if PyStr.truthy d then Some (os_path_join d (PyStr.of_int rank))
      else Some d
  end.

Definition make_robotics_env (w : World) (env_id : string) (seed : option Z)
    (rank : Z) : M Env :=
  emit (Ev_set_global_seeds seed);;
  env ← new w (gym_make env_id);
  env ← new w (FlattenDictWrapper env ["observation"; "desired_goal"]);
  env ← new w (Monitor env (robotics_monitor_filename w rank) None
                      (Some ["is_success"]));
  emit (Ev_seed env seed);;
  mret env.

(** The closure [make_thunk(rank)] returns: the variables of
    [make_vec_env] it captures, and [rank]. *)
Record Thunk : Type := mkThunk {
  th_env_id : string;
  th_env_type : string;
  th_subrank : Z;
  th_seed : option Z;
  th_reward_scale : float;
  th_gamestate : option string;
  th_flatten_dict_observations : bool;
  th_wrapper_kwargs : Kwargs
}.

(** Calling the closure. *)
Definition call (w : World) (th : Thunk) : M Env :=
  make_env w (th_env_id th) (th_env_type th) (th_subrank th) (th_seed th)
    (th_reward_scale th) (th_gamestate th) (th_flatten_dict_observations th)
    (Some (th_wrapper_kwargs th)).

(** The two vectorized handles; each is handed the closures, not
    environments. The classes are external: a handle here is the
    constructor call and its argument, what the constructor does with the
    closures (and whether it raises) is outside the model. *)
Inductive VecEnv : Type :=
  | SubprocVecEnv (env_fns : list Thunk)
  | DummyVecEnv (env_fns : list Thunk).

Definition env_fns (v : VecEnv) : list Thunk :=
  match v with SubprocVecEnv fns | DummyVecEnv fns => fns end.

(** [range(n)] *)
Definition range (n : Z) : list Z := map Z.of_nat (seq 0 (Z.to_nat n)).

Definition make_vec_env (w : World) (env_id env_type : string) (num_env : Z)
    (seed : option Z) (wrapper_kwargs : option Kwargs) (start_index : Z)
    (reward_scale : float) (flatten_dict_observations : bool)
    (gamestate : option string) : M VecEnv :=
  let wrapper_kwargs := kwargs_or_empty wrapper_kwargs in
  let mpi_rank := rank_or_zero w in
  let seed := offset_seed seed (10000 * mpi_rank) in
  let fdo := flatten_dict_observations in
  let make_thunk (rank : Z) : Thunk :=
    {| th_env_id := env_id;
       th_env_type := env_type;
       th_subrank := rank;
       th_seed := seed;
       th_reward_scale := reward_scale;
       th_gamestate := gamestate;
       th_flatten_dict_observations := fdo;
       th_wrapper_kwargs := wrapper_kwargs |} in
  emit (Ev_set_global_seeds seed);;
  if 1 <? num_env
  then mret (SubprocVecEnv
               (map (fun i => make_thunk (i + start_index)) (range num_env)))
  else mret (DummyVecEnv [make_thunk start_index]).

(** ** Observations on handles and traces *)

(** The arguments of the [env.seed] calls, in order. *)
Definition seed_calls (tr : list Event) : list (option Z) :=
  omap (fun ev => match ev with Ev_seed _ s => Some s | _ => None end) tr.

(** The arguments of the [set_global_seeds] calls, in order. *)
Definition global_seed_calls (tr : list Event) : list (option Z) :=
  omap (fun ev => match ev with Ev_set_global_seeds s => Some s | _ => None end)
       tr.

(** The mappings handed to [update_params], in order. *)
Definition update_params_calls (tr : list Event) : list Kwargs :=
  omap (fun ev => match ev with Ev_update_params _ p => Some p | _ => None end)
       tr.

(** The file names given to the monitors of a chain, outermost first. *)
Fixpoint monitor_filenames (env : Env) : list (option string) :=
  match env with
  | make_atari _ | make_retro _ _ _ _ | gym_make _ => []
  | FlattenDictWrapper e _ => monitor_filenames e
  | Monitor e f _ _ => f :: monitor_filenames e
  | wrap_deepmind e _ | wrap_deepmind_retro e _ => monitor_filenames e
  | RewardScaler e _ => monitor_filenames e
  end.

(** Modelled from the spec: the class [Monitor] of [baselines.bench] is not
    part of the sources at hand. The spec has the episode statistics written
    under the path the monitor is given, and no monitoring file written when
    there is none. *)
Definition monitor_files (env : Env) : list string :=
  omap id (monitor_filenames env).

(** Whether the outermost adapter is the reward scaler. *)
Definition is_RewardScaler (env : Env) : bool :=
  match env with RewardScaler _ _ => true | _ => false end.

Section StepReward.

(** What identifies a step taken on a handle. *)
Variable Step : Type.

(** The reward a chain returns for a step when its outermost layer is not
    the reward scaler (simulators, monitor and family bundles are external). *)
Variable raw_reward : Env -> Step -> float.

(** Modelled from the spec: the class [RewardScaler] of
    [baselines.common.retro_wrappers] is not part of the sources at hand.
    The spec has reward scaling by factor [s] yield a step reward equal to
    [s] times the original reward, for every step. *)
Fixpoint step_reward (env : Env) (st : Step) : float :=
  match env with
  | RewardScaler inner s => PrimFloat.mul s (step_reward inner st)
  | _ => raw_reward env st
  end.

End StepReward.

(** The same world with another answer for the [MPI] global. *)
Definition with_MPI (mpi : option Z) (w : World) : World :=
  {| MPI := mpi;
     logger_get_dir := logger_get_dir w;
     retro_installed := retro_installed w;
     constructs := constructs w;
     observation_dict_keys := observation_dict_keys w |}.

(** *** The chain [make_env] builds, layer by layer *)

Definition base_of (env_id env_type : string) (gamestate : option string)
  : Env :=
  if String.eqb env_type "atari" then make_atari env_id
  else if String.eqb env_type "retro"
  then make_retro env_id 10000 DISCRETE (gamestate_or_default gamestate)
  else gym_make env_id.

Definition flattened_of (w : World) (flatten_dict_observations : bool)
    (env : Env) : Env :=
  if flatten_dict_observations then
    match observation_dict_keys w env with
    | Some keys => FlattenDictWrapper env keys
    | None => env
    end
  else env.

Definition post_of (env_type : string) (kwargs : Kwargs) (env : Env) : Env :=
  if String.eqb env_type "atari" then wrap_deepmind env kwargs
  else if String.eqb env_type "retro" then wrap_deepmind_retro env kwargs
  else env.

Definition scaled_of (reward_scale : float) (env : Env) : Env :=
  if ne_one reward_scale then RewardScaler env reward_scale else env.

(** The handle that is seeded: the family's environment, flattened when
    asked for and dictionary-shaped. *)
Definition seeded_of (w : World) (env_id env_type : string)
    (gamestate : option string) (flatten_dict_observations : bool) : Env :=
  flattened_of w flatten_dict_observations (base_of env_id env_type gamestate).

Definition monitored_of (w : World) (env_id env_type : string) (subrank : Z)
    (gamestate : option string) (flatten_dict_observations : bool) : Env :=
  Monitor (seeded_of w env_id env_type gamestate flatten_dict_observations)
          (monitor_filename w (rank_or_zero w) subrank) (Some true) None.

Definition handle_of (w : World) (env_id env_type : string) (subrank : Z)
    (reward_scale : float) (gamestate : option string)
    (flatten_dict_observations : bool) (wrapper_kwargs : option Kwargs)
  : Env :=
  scaled_of reward_scale
    (post_of env_type (kwargs_or_empty wrapper_kwargs)
       (monitored_of w env_id env_type subrank gamestate
          flatten_dict_observations)).

(** The events before the seeding, and those after the parameter update. *)
Definition events_before_seed (w : World) (env_id env_type : string)
    (gamestate : option string) (flatten_dict_observations : bool)
  : list Event :=
  let base := base_of env_id env_type gamestate in
  Ev_new base ::
  (if flatten_dict_observations then
     match observation_dict_keys w base with
     | Some keys => [Ev_new (FlattenDictWrapper base keys)]
     | None => []
     end
   else []).

Definition events_after_monitor (env_type : string) (reward_scale : float)
    (kwargs : Kwargs) (mon : Env) : list Event :=
  ((if String.eqb env_type "atari" then [Ev_new (wrap_deepmind mon kwargs)]
    else if String.eqb env_type "retro"
    then [Ev_new (wrap_deepmind_retro mon kwargs)]
    else []) ++
   (if ne_one reward_scale
    then [Ev_new (RewardScaler (post_of env_type kwargs mon) reward_scale)]
    else []))%list.

(** Every event of a call of [make_env] in which nothing raises. *)
Definition events_of (w : World) (env_id env_type : string) (subrank : Z)
    (seed : option Z) (reward_scale : float) (gamestate : option string)
    (flatten_dict_observations : bool) (wrapper_kwargs : option Kwargs)
  : list Event :=
  let seeded :=
    seeded_of w env_id env_type gamestate flatten_dict_observations in
  let mon :=
    monitored_of w env_id env_type subrank gamestate
      flatten_dict_observations in
  (events_before_seed w env_id env_type gamestate flatten_dict_observations ++
   Ev_seed seeded (offset_seed seed subrank) ::
   (if String.eqb env_id "priors-v0"
    then [Ev_update_params seeded (kwargs_or_empty wrapper_kwargs)]
    else []) ++
   Ev_new mon ::
   events_after_monitor env_type reward_scale
     (kwargs_or_empty wrapper_kwargs) mon)%list.

(** ** Sample surroundings *)

(** No distributed library, no log directory, every constructor returns,
    no dictionary-shaped observations. *)
Definition plain_world : World :=
  {| MPI := None;
     logger_get_dir := None;
     retro_installed := true;
     constructs := fun _ => true;
     observation_dict_keys := fun _ => None |}.

(** Rank 3 of a distributed run logging under [/tmp/log]; robotics-style
    dictionary observations. *)
Definition logged_world : World :=
  {| MPI := Some 3;
     logger_get_dir := Some "/tmp/log";
     retro_installed := true;
     constructs := fun _ => true;
     observation_dict_keys := fun _ => Some ["observation"; "desired_goal"] |}.

(** Every constructor returns but the monitor's. *)
Definition no_monitor_world : World :=
  {| MPI := None;
     logger_get_dir := None;
     retro_installed := true;
     constructs := fun env =>
       match env with Monitor _ _ _ _ => false | _ => true end;
     observation_dict_keys := fun _ => None |}.

(** The [retro] package is not installed. *)
Definition no_retro_world : World :=
  {| MPI := None;
     logger_get_dir := None;
     retro_installed := false;
     constructs := fun _ => true;
     observation_dict_keys := fun _ => None |}.

(** The closure for index 1 of a builder run at rank 3 with seed 7. *)
Definition sample_thunk : Thunk :=
  {| th_env_id := "Reacher-v2";
     th_env_type := "mujoco";
     th_subrank := 1;
     th_seed := Some 30007;
     th_reward_scale := 1%float;
     th_gamestate := None;
     th_flatten_dict_observations := true;
     th_wrapper_kwargs := ∅ |}.

(** ** Properties *)

(** *** String primitives *)

Lemma split_cons (c : ascii) (s : string) :
  exists t, PyStr.split c s = PyStr.before c s :: t.
Proof.
  induction s as [|a s [t IH]]; simpl; [by eexists|].
  destruct (Ascii.eqb a c); [by eexists|].
  rewrite IH. by eexists.
Qed.

Lemma split_contains (c : ascii) (s : string) :
  PyStr.contains c s = true ->
  PyStr.split c s = PyStr.before c s :: PyStr.split c (PyStr.after c s).
Proof.
  induction s as [|a s IH]; simpl; [done|].
  destruct (Ascii.eqb a c); [done|].
  intros H. rewrite (IH H). done.
Qed.

Lemma before_all (c : ascii) (s : string) :
  PyStr.contains c s = false <-> PyStr.before c s = s.
Proof.
  induction s as [|a s IH]; simpl; [done|].
  destruct (Ascii.eqb a c); [split; discriminate|].
  rewrite IH. split; congruence.
Qed.

(** *** The residual parser *)

(** A [--key=value] token: what the two [split('=')] subscripts select. *)
Lemma body_key_value (st : Residual.Locals) (arg : string) :
  PyStr.startswith arg "--" = true ->
  PyStr.contains "=" arg = true ->
  Residual.body st arg =
  Return {| Residual.retval :=
              <[PyStr.slice_from 2 (PyStr.before "=" arg) :=
                  PyStr.before "=" (PyStr.after "=" arg)]> (Residual.retval st);
            Residual.key := Some (PyStr.slice_from 2 (PyStr.before "=" arg));
            Residual.preceded_by_key := Residual.preceded_by_key st |}.
Proof.
  intros Hflag Heq. unfold Residual.body. rewrite Hflag, Heq.
  rewrite (split_contains _ _ Heq).
  destruct (split_cons "=" (PyStr.after "=" arg)) as [t ->]. done.
Qed.

(** A token that is no flag, met while no bare key is pending, changes
    nothing. *)
Lemma body_ignores (st : Residual.Locals) (arg : string) :
  PyStr.startswith arg "--" = false ->
  Residual.preceded_by_key st = false ->
  Residual.body st arg = Return st.
Proof. intros Hflag Hp. unfold Residual.body. by rewrite Hflag, Hp. Qed.

Lemma body_returns (st : Residual.Locals) (arg : string) :
  key_bound st ->
  exists st', Residual.body st arg = Return st' /\ key_bound st'.
Proof.
  intros Hb.
  destruct (PyStr.startswith arg "--") eqn:Hflag.
  - destruct (PyStr.contains "=" arg) eqn:Heq.
    + rewrite (body_key_value _ _ Hflag Heq). eexists; split; [done|].
      intros _. by eexists.
    + unfold Residual.body. rewrite Hflag, Heq. eexists; split; [done|].
      intros _. by eexists.
  - unfold Residual.body. rewrite Hflag.
    destruct (Residual.preceded_by_key st) eqn:Hp.
    + destruct (Hb Hp) as [k Hk]. rewrite Hk. eexists; split; [done|].
      intros Hfalse. discriminate Hfalse.
    + eexists; split; [done|]. done.
Qed.

(** C1: the three example inputs of the residual parser give the stated
    mappings: [--x 1 --y=2 --z] gives x -> 1, y -> 2 and leaves z out;
    [--a=1 ignored --b 2] gives a -> 1, b -> 2; a key given twice keeps the
    value of its last occurrence. *)
Theorem parse_unknown_args_examples :
  Residual.parse_unknown_args ["--x"; "1"; "--y=2"; "--z"]
    = Return {[ "x" := "1"; "y" := "2" ]}
  /\ ({[ "x" := "1"; "y" := "2" ]} : gmap string string) !! "z" = None
  /\ Residual.parse_unknown_args ["--a=1"; "ignored"; "--b"; "2"]
    = Return {[ "a" := "1"; "b" := "2" ]}
  /\ Residual.parse_unknown_args ["--k"; "1"; "--k"; "2"]
    = Return {[ "k" := "2" ]}.
Proof. repeat split; vm_compute; reflexivity. Qed.

(** C2 (what the code does at the failing input): the value of a
    [--key=value] token stops at the second [=]. The token [--a=b=c] has
    [b=c] right of its first [=], yet [a] is mapped to [b]; the same value
    given as a token of its own is kept whole. *)
Theorem parse_unknown_args_value_cut_at_second_eq :
  Residual.parse_unknown_args ["--a=b=c"] = Return {[ "a" := "b" ]}
  /\ PyStr.after "=" "--a=b=c" = "b=c"
  /\ Residual.parse_unknown_args ["--a"; "b=c"] = Return {[ "a" := "b=c" ]}.
Proof. repeat split; vm_compute; reflexivity. Qed.

(** C3 (what the code does at the failing input): [preceded_by_key] stays
    set across a [--key=value] token, so the token after [--b=1] is not
    ignored when a bare key came before: it replaces the value of [b]. *)
Theorem parse_unknown_args_token_after_pair_assigned :
  Residual.parse_unknown_args ["--a"; "--b=1"; "x"] = Return {[ "b" := "x" ]}
  /\ Residual.parse_unknown_args ["--a"; "--b=1"] = Return {[ "b" := "1" ]}
  /\ Residual.parse_unknown_args ["--b=1"; "x"] = Return {[ "b" := "1" ]}.
Proof. repeat split; vm_compute; reflexivity. Qed.

(** *** The outcome monad *)

Lemma bind_Return {A B : Type} (m : M A) (f : A -> M B)
    (tr : list Event) (b : B) :
  m ≫= f = (tr, Return b) ->
  exists t1 a t2,
    m = (t1, Return a) /\ f a = (t2, Return b) /\ tr = (t1 ++ t2)%list.
Proof.
  destruct m as [t1 [a|e]]; unfold mbind, M_bind; [|discriminate].
  destruct (f a) as [t2 o] eqn:Hf. intros [= <- ->]. by exists t1, a, t2.
Qed.

Lemma new_Return (w : World) (env : Env) (tr : list Event) (e : Env) :
  new w env = (tr, Return e) ->
  constructs w env = true /\ tr = [Ev_new env] /\ e = env.
Proof. unfold new, raise. destruct (constructs w env); naive_solver. Qed.

(** *** make_env *)

(** Whatever the surroundings, a call of [make_env] that returns has built
    the chain [handle_of] through the events [events_of]. *)
Lemma make_env_Return (w : World) (env_id env_type : string) (subrank : Z)
    (seed : option Z) (reward_scale : float) (gamestate : option string)
    (fdo : bool) (wrapper_kwargs : option Kwargs)
    (tr : list Event) (e : Env) :
  make_env w env_id env_type subrank seed reward_scale gamestate fdo
    wrapper_kwargs = (tr, Return e) ->
  e = handle_of w env_id env_type subrank reward_scale gamestate fdo
        wrapper_kwargs
  /\ tr = events_of w env_id env_type subrank seed reward_scale gamestate fdo
            wrapper_kwargs.
Proof.
  unfold make_env, handle_of, events_of, events_before_seed,
    events_after_monitor, monitored_of, seeded_of, scaled_of, post_of,
    flattened_of, base_of, new, raise, emit.
  unfold mbind, M_bind, mret, M_ret.
  intros H.
  repeat (case_match; simplify_eq/=); done.
Qed.

Lemma seed_calls_events_of (w : World) (env_id env_type : string)
    (subrank : Z) (seed : option Z) (reward_scale : float)
    (gamestate : option string) (fdo : bool)
    (wrapper_kwargs : option Kwargs) :
  seed_calls (events_of w env_id env_type subrank seed reward_scale gamestate
                fdo wrapper_kwargs) = [offset_seed seed subrank].
Proof.
  unfold events_of, events_before_seed, events_after_monitor, seed_calls.
  repeat case_match; reflexivity.
Qed.

Lemma update_params_calls_events_of (w : World) (env_id env_type : string)
    (subrank : Z) (seed : option Z) (reward_scale : float)
    (gamestate : option string) (fdo : bool)
    (wrapper_kwargs : option Kwargs) :
  update_params_calls (events_of w env_id env_type subrank seed reward_scale
                         gamestate fdo wrapper_kwargs)
  = if String.eqb env_id "priors-v0"
    then [kwargs_or_empty wrapper_kwargs] else [].
Proof.
  unfold events_of, events_before_seed, events_after_monitor,
    update_params_calls.
  repeat case_match; reflexivity.
Qed.

Lemma monitor_filenames_handle_of (w : World) (env_id env_type : string)
    (subrank : Z) (reward_scale : float) (gamestate : option string)
    (fdo : bool) (wrapper_kwargs : option Kwargs) :
  monitor_filenames (handle_of w env_id env_type subrank reward_scale
                       gamestate fdo wrapper_kwargs)
  = [monitor_filename w (rank_or_zero w) subrank].
Proof.
  unfold handle_of, scaled_of, post_of, monitored_of, seeded_of,
    flattened_of, base_of.
  repeat case_match; reflexivity.
Qed.

(** *** Floats and paths *)

Lemma eqb_one (x : float) : PrimFloat.eqb x 1%float = true -> x = 1%float.
Proof.
  rewrite FloatAxioms.eqb_spec. intros H.
  rewrite <- (SF2Prim_Prim2SF x).
  replace 1%float with (SF2Prim (Prim2SF 1%float)) by apply SF2Prim_Prim2SF.
  f_equal.
  change (Prim2SF 1%float) with (S754_finite false 4503599627370496 (-52)) in *.
  destruct (Prim2SF x) as [s| s | |s m e]; try destruct s; try discriminate H.
  unfold SFeqb, SFcompare in H.
  destruct (Z.compare_spec e (-52)) as [He| |]; try discriminate H.
  rewrite He. f_equal.
  apply Pos.compare_eq. unfold Pos.compare.
  destruct (PosDef.Pos.compare_cont Eq m 4503599627370496);
    [reflexivity | discriminate H | discriminate H].
Qed.

(** The test [reward_scale != 1] fails for the float 1.0 and for no other. *)
Lemma ne_one_iff (x : float) : ne_one x = true <-> x <> 1%float.
Proof.
  unfold ne_one. split.
  - intros H ->. vm_compute in H. discriminate H.
  - intros H. destruct (PrimFloat.eqb x 1) eqn:E; [|reflexivity].
    apply eqb_one in E. contradiction.
Qed.

Lemma ne_one_false_iff (x : float) : ne_one x = false <-> x = 1%float.
Proof.
  split.
  - intros H. unfold ne_one in H. apply eqb_one.
    destruct (PrimFloat.eqb x 1); [reflexivity | discriminate H].
  - intros ->. reflexivity.
Qed.

(** [str] of an integer never starts with a slash. *)
Lemma of_int_no_slash (z : Z) (rest : string) :
  PyStr.startswith (PyStr.of_int z ++ rest) "/" = false.
Proof.
  unfold PyStr.startswith, PyStr.of_int, NilZero.string_of_int.
  destruct (Z.to_int z) as [d|d]; [|reflexivity].
  destruct d; reflexivity.
Qed.

(** Joining a directory and the name of a monitor file. *)
Lemma os_path_join_name (d : string) (z : Z) (rest : string) :
  d <> "" ->
  os_path_join d (PyStr.of_int z ++ rest)
  = d ++ (if PyStr.endswith_char "/" d then "" else "/")
      ++ PyStr.of_int z ++ rest.
Proof.
  intros Hd. unfold os_path_join. rewrite of_int_no_slash.
  destruct d as [|a d]; [done|]. simpl PyStr.truthy. simpl negb.
  rewrite orb_false_l.
  destruct (PyStr.endswith_char "/" (String a d)); reflexivity.
Qed.

(** *** make_vec_env *)

Lemma range_length (n : Z) : length (range n) = Z.to_nat n.
Proof. unfold range. by rewrite length_map, length_seq. Qed.

Lemma range_lookup (n : Z) (i : nat) :
  Z.of_nat i < n -> range n !! i = Some (Z.of_nat i).
Proof.
  intros Hi. unfold range.
  change (map Z.of_nat (seq 0 (Z.to_nat n)))
    with (Z.of_nat <$> seq 0 (Z.to_nat n)).
  rewrite list_lookup_fmap, lookup_seq_lt by lia. reflexivity.
Qed.

(** C4: for a replica count of at least one the handle holds exactly that
    many replicas, at any rank. When the seed is null, no replica is given
    a seed value; when a seed is given and the rank offset is 0, replica
    [i] is seeded with [seed + start_index + i]. *)
Theorem make_vec_env_replicas_seeded (w : World) (env_id env_type : string)
    (num_env : Z) (seed : option Z) (wrapper_kwargs : option Kwargs)
    (start_index : Z) (reward_scale : float) (fdo : bool)
    (gamestate : option string) :
  1 <= num_env ->
  exists v,
    (make_vec_env w env_id env_type num_env seed wrapper_kwargs start_index
       reward_scale fdo gamestate).2 = Return v
    /\ Z.of_nat (length (env_fns v)) = num_env
    /\ forall i : nat, Z.of_nat i < num_env ->
       exists th,
         env_fns v !! i = Some th
         /\ forall tr e, call w th = (tr, Return e) ->
              (seed = None -> seed_calls tr = [None])
              /\ (forall s, seed = Some s -> rank_or_zero w = 0 ->
                  seed_calls tr = [Some (s + start_index + Z.of_nat i)]).
Proof.
  intros HN. unfold make_vec_env.
  destruct (1 <? num_env) eqn:Hmode; simpl.
  - eexists. split; [reflexivity|]. split.
    { simpl. rewrite length_map, range_length. lia. }
    intros i Hi. eexists. split.
    { simpl.
      match goal with |- map ?f ?l !! _ = _ =>
        change (map f l) with (f <$> l) end.
      rewrite list_lookup_fmap, (range_lookup _ _ Hi). reflexivity. }
    intros tr e Hcall. unfold call in Hcall. simpl in Hcall.
    apply make_env_Return in Hcall as [_ ->].
    rewrite seed_calls_events_of. split.
    + intros ->. reflexivity.
    + intros s -> Hrank. rewrite Hrank. simpl. do 2 f_equal. lia.
  - apply Z.ltb_ge in Hmode. assert (num_env = 1) as -> by lia.
    eexists. split; [reflexivity|]. split; [reflexivity|].
    intros i Hi. assert (i = 0%nat) as -> by lia.
    eexists. split; [reflexivity|].
    intros tr e Hcall. unfold call in Hcall. simpl in Hcall.
    apply make_env_Return in Hcall as [_ ->].
    rewrite seed_calls_events_of. split.
    + intros ->. reflexivity.
    + intros s -> Hrank. rewrite Hrank. simpl. do 2 f_equal. lia.
Qed.

Lemma make_vec_env_replicas_seeded_witness :
  1 <= 3
  /\ exists v th tr e,
       (make_vec_env plain_world "Reacher-v2" "mujoco" 3 (Some 7) None 10
          1%float true None).2 = Return v
       /\ Z.of_nat (length (env_fns v)) = 3
       /\ env_fns v !! 2%nat = Some th
       /\ call plain_world th = (tr, Return e)
       /\ seed_calls tr = [Some 19].
Proof.
  split; [lia|].
  destruct (make_vec_env_replicas_seeded plain_world "Reacher-v2" "mujoco" 3
              (Some 7) None 10 1%float true None ltac:(lia))
    as (v & Hv & Hlen & Hrep).
  destruct (Hrep 2%nat ltac:(lia)) as (th & Hth & Hseed).
  vm_compute in Hv. injection Hv as <-.
  vm_compute in Hth. injection Hth as <-.
  eexists _, _, _, _. split; [reflexivity|]. split; [exact Hlen|].
  split; [reflexivity|]. split; [vm_compute; reflexivity|].
  exact (proj2 (Hseed _ _ eq_refl) 7 eq_refl eq_refl).
Defined.

(** C5: the replica count alone selects the handle. Above one, a
    multi-process handle is given one closure per index
    [start_index .. start_index + N - 1], each of which calls the factory
    when it is run; otherwise an in-process handle is given the single
    closure for [start_index]. The builder itself constructs no
    environment: its only event is the global seeding. *)
Theorem make_vec_env_mode (w : World) (env_id env_type : string)
    (num_env : Z) (seed : option Z) (wrapper_kwargs : option Kwargs)
    (start_index : Z) (reward_scale : float) (fdo : bool)
    (gamestate : option string) :
  let seed' := offset_seed seed (10000 * rank_or_zero w) in
  let calls_factory (th : Thunk) :=
    call w th = make_env w env_id env_type (th_subrank th) seed' reward_scale
                  gamestate fdo (Some (kwargs_or_empty wrapper_kwargs)) in
  (1 < num_env ->
   exists fns,
     make_vec_env w env_id env_type num_env seed wrapper_kwargs start_index
       reward_scale fdo gamestate
     = ([Ev_set_global_seeds seed'], Return (SubprocVecEnv fns))
     /\ Z.of_nat (length fns) = num_env
     /\ map th_subrank fns
        = map (fun i => start_index + Z.of_nat i) (seq 0 (Z.to_nat num_env))
     /\ Forall calls_factory fns)
  /\ (num_env <= 1 ->
      exists th,
        make_vec_env w env_id env_type num_env seed wrapper_kwargs start_index
          reward_scale fdo gamestate
        = ([Ev_set_global_seeds seed'], Return (DummyVecEnv [th]))
        /\ th_subrank th = start_index
        /\ calls_factory th).
Proof.
  intros seed' calls_factory. unfold make_vec_env. split; intros HN.
  - apply Z.ltb_lt in HN. rewrite HN. simpl. eexists.
    split; [reflexivity|]. split.
    { rewrite length_map, range_length. apply Z.ltb_lt in HN. lia. }
    split.
    { unfold range. rewrite !map_map. apply map_ext. intros i. simpl. lia. }
    apply List.Forall_forall. intros th Hin.
    apply in_map_iff in Hin as (i & <- & _). reflexivity.
  - apply Z.ltb_ge in HN. rewrite HN. simpl. eexists.
    split; [reflexivity|]. split; reflexivity.
Qed.

Lemma make_vec_env_mode_witness :
  1 < 4 /\ 1 <= 1 /\
  (exists fns,
     make_vec_env logged_world "PongNoFrameskip-v4" "atari" 4 (Some 0) None 2
       1%float true None
     = ([Ev_set_global_seeds (Some 30000)], Return (SubprocVecEnv fns))
     /\ map th_subrank fns = [2; 3; 4; 5])
  /\ (exists th,
        make_vec_env logged_world "PongNoFrameskip-v4" "atari" 1 (Some 0) None
          2 1%float true None
        = ([Ev_set_global_seeds (Some 30000)], Return (DummyVecEnv [th]))
        /\ th_subrank th = 2).
Proof.
  split; [lia|]. split; [lia|]. split.
  - destruct (make_vec_env_mode logged_world "PongNoFrameskip-v4" "atari" 4
                (Some 0) None 2 1%float true None) as [Hsub _].
    destruct Hsub as (fns & Heq & _ & Hidx & _); [lia|].
    exists fns. split; [exact Heq | exact Hidx].
  - destruct (make_vec_env_mode logged_world "PongNoFrameskip-v4" "atari" 1
                (Some 0) None 2 1%float true None) as [_ Hdummy].
    destruct Hdummy as (th & Heq & Hidx & _); [lia|].
    exists th. split; [exact Heq | exact Hidx].
Defined.

(** *** Reward scaling *)

(** A returning call of [make_env] also returns when asked for scale 1.0,
    and differs from that call by the scaler only. *)
Lemma make_env_unscaled (w : World) (env_id env_type : string) (subrank : Z)
    (seed : option Z) (reward_scale : float) (gamestate : option string)
    (fdo : bool) (wrapper_kwargs : option Kwargs)
    (tr : list Event) (e : Env) :
  make_env w env_id env_type subrank seed reward_scale gamestate fdo
    wrapper_kwargs = (tr, Return e) ->
  exists tr0 e0,
    make_env w env_id env_type subrank seed 1%float gamestate fdo
      wrapper_kwargs = (tr0, Return e0)
    /\ is_RewardScaler e0 = false
    /\ e = scaled_of reward_scale e0
    /\ tr = (tr0 ++ if ne_one reward_scale
                    then [Ev_new (RewardScaler e0 reward_scale)] else [])%list.
Proof.
  unfold make_env, scaled_of, new, raise, emit.
  unfold mbind, M_bind, mret, M_ret.
  change (ne_one 1%float) with false.
  intros H.
  repeat (case_match; simplify_eq/=);
    (eexists _, _; split; [reflexivity|]; split; [reflexivity|];
     split; [reflexivity|]; rewrite <- ?app_assoc, ?app_nil_r; reflexivity).
Qed.

(** C6: when the reward scale differs from 1, the handle [make_env] returns
    is the unscaled chain under a scaler, and every step reward is the scale
    times the reward of that chain; when the scale is exactly 1, no scaler
    is constructed and the reward is the one the chain returns. *)
Theorem make_env_reward_scale (Step : Type) (raw_reward : Env -> Step -> float)
    (w : World) (env_id env_type : string) (subrank : Z)
    (seed : option Z) (reward_scale : float) (gamestate : option string)
    (fdo : bool) (wrapper_kwargs : option Kwargs)
    (tr : list Event) (e : Env) :
  make_env w env_id env_type subrank seed reward_scale gamestate fdo
    wrapper_kwargs = (tr, Return e) ->
  exists tr0 e0,
    make_env w env_id env_type subrank seed 1%float gamestate fdo
      wrapper_kwargs = (tr0, Return e0)
    /\ (reward_scale <> 1%float ->
        e = RewardScaler e0 reward_scale
        /\ forall st,
             step_reward Step raw_reward e st
             = PrimFloat.mul reward_scale (step_reward Step raw_reward e0 st))
    /\ (reward_scale = 1%float ->
        e = e0
        /\ is_RewardScaler e = false
        /\ (forall env s, Ev_new (RewardScaler env s) ∉ tr)
        /\ forall st, step_reward Step raw_reward e st = raw_reward e st).
Proof.
  intros H.
  destruct (make_env_unscaled _ _ _ _ _ _ _ _ _ _ _ H)
    as (tr0 & e0 & H0 & Hplain & He & Htr).
  exists tr0, e0. split; [exact H0|]. split.
  - intros Hne. apply ne_one_iff in Hne. unfold scaled_of in He.
    rewrite Hne in He. subst e. split; reflexivity.
  - intros ->. split; [exact He|]. subst e. simpl in Htr.
    rewrite app_nil_r in Htr. subst tr0.
    change (scaled_of 1%float e0) with e0.
    split; [exact Hplain|]. split.
    + intros env s Hin.
      apply make_env_Return in H0 as [_ Hev]. rewrite Hev in Hin.
      unfold events_of, events_before_seed, events_after_monitor,
        monitored_of, seeded_of, post_of, flattened_of, base_of in Hin.
      change (ne_one 1%float) with false in Hin.
      repeat case_match; simpl in Hin;
        repeat (apply elem_of_cons in Hin as [Hin|Hin]; [discriminate Hin|]);
        by apply elem_of_nil in Hin.
    + intros st. destruct e0; try reflexivity. discriminate Hplain.
Qed.

Lemma make_env_reward_scale_witness :
  let e0 := Monitor (gym_make "Reacher-v2") None (Some true) None in
  make_env plain_world "Reacher-v2" "mujoco" 0 (Some 5) 0.5%float None true
    None
  = ([Ev_new (gym_make "Reacher-v2"); Ev_seed (gym_make "Reacher-v2") (Some 5);
      Ev_new e0; Ev_new (RewardScaler e0 0.5%float)],
     Return (RewardScaler e0 0.5%float))
  /\ exists tr0 e0',
       make_env plain_world "Reacher-v2" "mujoco" 0 (Some 5) 1%float None true
         None = (tr0, Return e0')
       /\ (0.5%float <> 1%float ->
           RewardScaler e0 0.5%float = RewardScaler e0' 0.5%float
           /\ forall st : nat,
                step_reward nat (fun _ _ => 4%float)
                  (RewardScaler e0 0.5%float) st
                = PrimFloat.mul 0.5%float
                    (step_reward nat (fun _ _ => 4%float) e0' st)).
Proof.
  intros e0. split; [reflexivity|].
  destruct (make_env_reward_scale nat (fun _ _ => 4%float) plain_world
              "Reacher-v2" "mujoco" 0 (Some 5) 0.5%float None true None
              _ _ eq_refl) as (tr0 & e0' & H0 & Hne & _).
  exists tr0, e0'. split; [exact H0 | exact Hne].
Defined.

(** *** Monitoring *)

(** C7: with a log directory configured, the monitor of the returned
    handle is given the path of the file [<rank>.<replica index>] in that
    directory, the rank being 0 without the distributed library; with no
    log directory the monitor is given no path and writes no file. *)
Theorem make_env_monitor_path (w : World) (env_id env_type : string)
    (subrank : Z) (seed : option Z) (reward_scale : float)
    (gamestate : option string) (fdo : bool)
    (wrapper_kwargs : option Kwargs) (tr : list Event) (e : Env) :
  make_env w env_id env_type subrank seed reward_scale gamestate fdo
    wrapper_kwargs = (tr, Return e) ->
  (logger_get_dir w = None ->
   monitor_filenames e = [None] /\ monitor_files e = [])
  /\ (forall d, logger_get_dir w = Some d -> d <> "" ->
      let rank := match MPI w with Some r => r | None => 0 end in
      let path := d ++ (if PyStr.endswith_char "/" d then "" else "/")
                    ++ PyStr.of_int rank ++ "." ++ PyStr.of_int subrank in
      monitor_filenames e = [Some path] /\ monitor_files e = [path]).
Proof.
  intros H. apply make_env_Return in H as [-> _].
  unfold monitor_files. rewrite monitor_filenames_handle_of.
  unfold monitor_filename, rank_or_zero. split.
  - intros ->. split; reflexivity.
  - intros d -> Hd. simpl.
    destruct d as [|a d]; [done|]. simpl PyStr.truthy. cbv iota.
    rewrite os_path_join_name by done. split; reflexivity.
Qed.

Lemma make_env_monitor_path_witness :
  (logger_get_dir plain_world = None ->
   monitor_filenames (Monitor (gym_make "Reacher-v2") None (Some true) None)
   = [None]
   /\ monitor_files (Monitor (gym_make "Reacher-v2") None (Some true) None)
      = [])
  /\ exists e,
       (make_env logged_world "Reacher-v2" "mujoco" 2 None 1%float None false
          None).2 = Return e
       /\ monitor_filenames e = [Some "/tmp/log/3.2"]
       /\ monitor_files e = ["/tmp/log/3.2"].
Proof.
  split.
  - exact (proj1 (make_env_monitor_path plain_world "Reacher-v2" "mujoco" 0
                    None 1%float None true None _ _ eq_refl)).
  - eexists. split; [reflexivity|].
    exact (proj2 (make_env_monitor_path logged_world "Reacher-v2" "mujoco" 2
                    None 1%float None false None _ _ eq_refl)
             "/tmp/log" eq_refl ltac:(discriminate)).
Defined.

(** *** The priors task *)

Lemma kwargs_or_empty_Some (m : Kwargs) : kwargs_or_empty (Some m) = m.
Proof. unfold kwargs_or_empty. by case_decide. Qed.

(** C8: [update_params] is called exactly when the identifier is
    [priors-v0]; it is handed the keyword options as they were given (the
    empty mapping when none were), right after the seeding of the same
    handle and right before the monitor is built around it. *)
Theorem make_env_priors_update_params (w : World) (env_id env_type : string)
    (subrank : Z) (seed : option Z) (reward_scale : float)
    (gamestate : option string) (fdo : bool)
    (wrapper_kwargs : option Kwargs) (tr : list Event) (e : Env) :
  make_env w env_id env_type subrank seed reward_scale gamestate fdo
    wrapper_kwargs = (tr, Return e) ->
  (update_params_calls tr <> [] <-> env_id = "priors-v0")
  /\ (forall m, wrapper_kwargs = Some m -> kwargs_or_empty wrapper_kwargs = m)
  /\ (env_id = "priors-v0" ->
      update_params_calls tr = [kwargs_or_empty wrapper_kwargs]
      /\ exists pre target fn post,
           tr = (pre ++
                 [Ev_seed target (offset_seed seed subrank);
                  Ev_update_params target (kwargs_or_empty wrapper_kwargs);
                  Ev_new (Monitor target fn (Some true) None)] ++ post)%list
           /\ Forall (fun ev => match ev with
                                | Ev_new (Monitor _ _ _ _) => False
                                | _ => True
                                end) pre).
Proof.
  intros H. apply make_env_Return in H as [_ ->]. split; [|split].
  - rewrite update_params_calls_events_of.
    destruct (String.eqb_spec env_id "priors-v0") as [Heq|Hne];
      split; try done.
  - intros m ->. apply kwargs_or_empty_Some.
  - intros ->. split.
    { by rewrite update_params_calls_events_of. }
    unfold events_of. simpl String.eqb. cbv iota.
    eexists _, _, _, _. split; [reflexivity|].
    unfold events_before_seed, base_of.
    repeat case_match; repeat constructor.
Qed.

Lemma make_env_priors_update_params_witness :
  exists tr e,
    make_env plain_world "priors-v0" "custom" 1 (Some 3) 1%float None true
      (Some {[ "trial_dur" := VInt 10 ]}) = (tr, Return e)
    /\ update_params_calls tr = [{[ "trial_dur" := VInt 10 ]}]
    /\ tr = [Ev_new (gym_make "priors-v0");
             Ev_seed (gym_make "priors-v0") (Some 4);
             Ev_update_params (gym_make "priors-v0")
               {[ "trial_dur" := VInt 10 ]};
             Ev_new (Monitor (gym_make "priors-v0") None (Some true) None)].
Proof.
  eexists _, _. split; [vm_compute; reflexivity|].
  split; [|vm_compute; reflexivity].
  pose proof (make_env_priors_update_params plain_world "priors-v0" "custom" 1
                (Some 3) 1%float None true
                (Some {[ "trial_dur" := VInt 10 ]}) _ _ eq_refl)
    as (_ & Hkw & Hcalls).
  destruct (Hcalls eq_refl) as [Hc _].
  rewrite (Hkw _ eq_refl) in Hc. exact Hc.
Defined.

(** *** make_mujoco_env *)

(** A call of [make_mujoco_env] returns only with the distributed library
    present; it then has seeded the global generators with the offset seed
    and the environment with the seed as given. *)
Lemma make_mujoco_env_Return (w : World) (env_id : string) (seed : option Z)
    (reward_scale : float) (tr : list Event) (e : Env) :
  make_mujoco_env w env_id seed reward_scale = (tr, Return e) ->
  exists rank,
    MPI w = Some rank
    /\ global_seed_calls tr = [offset_seed seed (1000 * rank)]
    /\ seed_calls tr = [seed].
Proof.
  unfold make_mujoco_env, Get_rank, new, raise, emit.
  unfold mbind, M_bind, mret, M_ret.
  intros H.
  repeat (case_match; simplify_eq/=); by eexists.
Qed.

(** C9: without the distributed library [make_mujoco_env] raises an
    attribute error before doing anything, where [make_env] and
    [make_vec_env] behave as they do at rank 0. *)
Theorem make_mujoco_env_needs_MPI (w : World) :
  MPI w = None ->
  (forall env_id seed reward_scale,
     exists msg,
       make_mujoco_env w env_id seed reward_scale
       = ([], Raise (AttributeError msg)))
  /\ (forall env_id env_type subrank seed reward_scale gamestate fdo
        wrapper_kwargs,
        make_env w env_id env_type subrank seed reward_scale gamestate fdo
          wrapper_kwargs
        = make_env (with_MPI (Some 0) w) env_id env_type subrank seed
            reward_scale gamestate fdo wrapper_kwargs)
  /\ (forall env_id env_type num_env seed wrapper_kwargs start_index
        reward_scale fdo gamestate,
        make_vec_env w env_id env_type num_env seed wrapper_kwargs start_index
          reward_scale fdo gamestate
        = make_vec_env (with_MPI (Some 0) w) env_id env_type num_env seed
            wrapper_kwargs start_index reward_scale fdo gamestate).
Proof.
  intros Hmpi. split; [|split].
  - intros env_id seed reward_scale. unfold make_mujoco_env, Get_rank.
    rewrite Hmpi. eexists. reflexivity.
  - intros. unfold make_env, monitor_filename, rank_or_zero, new.
    rewrite Hmpi. reflexivity.
  - intros. unfold make_vec_env, rank_or_zero. rewrite Hmpi. reflexivity.
Qed.

Lemma make_mujoco_env_needs_MPI_witness :
  MPI plain_world = None
  /\ (exists msg,
        make_mujoco_env plain_world "Reacher-v2" (Some 1) 1%float
        = ([], Raise (AttributeError msg)))
  /\ exists tr e,
       make_env plain_world "Reacher-v2" "mujoco" 0 (Some 1) 1%float None true
         None = (tr, Return e)
       /\ make_env (with_MPI (Some 0) plain_world) "Reacher-v2" "mujoco" 0
            (Some 1) 1%float None true None = (tr, Return e).
Proof.
  split; [reflexivity|].
  destruct (make_mujoco_env_needs_MPI plain_world eq_refl)
    as (Hraise & Henv & _).
  split; [apply Hraise|].
  eexists _, _. split; [vm_compute; reflexivity|].
  rewrite <- Henv. vm_compute. reflexivity.
Defined.

(** C10: in [make_mujoco_env] with a seed, the rank offset [1000 * rank]
    reaches the global seeding only; the environment is seeded with the
    seed as given, hence with the same value at any two ranks. *)
Theorem make_mujoco_env_seeds (w1 w2 : World) (env_id : string) (s : Z)
    (reward_scale : float) (r1 r2 : Z) (tr1 tr2 : list Event) (e1 e2 : Env) :
  MPI w1 = Some r1 ->
  MPI w2 = Some r2 ->
  make_mujoco_env w1 env_id (Some s) reward_scale = (tr1, Return e1) ->
  make_mujoco_env w2 env_id (Some s) reward_scale = (tr2, Return e2) ->
  global_seed_calls tr1 = [Some (s + 1000 * r1)]
  /\ global_seed_calls tr2 = [Some (s + 1000 * r2)]
  /\ seed_calls tr1 = [Some s]
  /\ seed_calls tr2 = [Some s].
Proof.
  intros Hr1 Hr2 H1 H2.
  apply make_mujoco_env_Return in H1 as (r1' & Hr1' & Hg1 & Hs1).
  apply make_mujoco_env_Return in H2 as (r2' & Hr2' & Hg2 & Hs2).
  rewrite Hr1 in Hr1'. rewrite Hr2 in Hr2'.
  injection Hr1' as <-. injection Hr2' as <-. done.
Qed.

Lemma make_mujoco_env_seeds_witness :
  exists tr1 e1 tr2 e2,
    make_mujoco_env (with_MPI (Some 0) logged_world) "Hopper-v2" (Some 42)
      1%float = (tr1, Return e1)
    /\ make_mujoco_env logged_world "Hopper-v2" (Some 42) 1%float
       = (tr2, Return e2)
    /\ global_seed_calls tr1 = [Some 42]
    /\ global_seed_calls tr2 = [Some 3042]
    /\ seed_calls tr1 = [Some 42]
    /\ seed_calls tr2 = [Some 42].
Proof.
  eexists _, _, _, _.
  split; [vm_compute; reflexivity|]. split; [vm_compute; reflexivity|].
  exact (make_mujoco_env_seeds (with_MPI (Some 0) logged_world) logged_world
           "Hopper-v2" 42 1%float 0 3 _ _ _ _ eq_refl eq_refl eq_refl eq_refl).
Defined.

(** ** Further properties of the residual parser *)

Lemma loop_app (st : Residual.Locals) (a b : list string) :
  Residual.loop st (a ++ b) =
  match Residual.loop st a with
  | Return st' => Residual.loop st' b
  | Raise e => Raise e
  end.
Proof.
  revert st. induction a as [|x a IH]; intros st; simpl; [done|].
  destruct (Residual.body st x); [apply IH | done].
Qed.

Lemma loop_keeps_key_bound (args : list string) (st : Residual.Locals) :
  key_bound st ->
  exists st', Residual.loop st args = Return st' /\ key_bound st'.
Proof.
  revert st. induction args as [|arg rest IH]; intros st Hb; simpl.
  - by eexists.
  - destruct (body_returns st arg Hb) as (st' & -> & Hb'). by apply IH.
Qed.

Lemma key_bound_init : key_bound Residual.init.
Proof. intros H. discriminate H. Qed.

Lemma body_bare_flag (st : Residual.Locals) (arg : string) :
  PyStr.startswith arg "--" = true ->
  PyStr.contains "=" arg = false ->
  Residual.body st arg =
  Return {| Residual.retval := Residual.retval st;
            Residual.key := Some (PyStr.slice_from 2 arg);
            Residual.preceded_by_key := true |}.
Proof. intros Hf He. unfold Residual.body. by rewrite Hf, He. Qed.

Lemma body_positional (st : Residual.Locals) (arg : string) :
  PyStr.startswith arg "--" = false ->
  key_bound st ->
  exists st',
    Residual.body st arg = Return st'
    /\ Residual.preceded_by_key st' = false.
Proof.
  intros Hf Hb. unfold Residual.body. rewrite Hf.
  destruct (Residual.preceded_by_key st) eqn:Hp.
  - destruct (Hb Hp) as [k Hk]. rewrite Hk. by eexists.
  - by eexists.
Qed.

(** The parser raises on no token list: neither subscript of
    [split('=')] is out of range, and [key] is never read unbound. *)
Theorem parse_unknown_args_never_raises (args : list string) :
  exists m, Residual.parse_unknown_args args = Return m.
Proof.
  unfold Residual.parse_unknown_args.
  destruct (loop_keeps_key_bound args _ key_bound_init) as (st & -> & _).
  by eexists.
Qed.

(** Tokens before the first flag are ignored. *)
Theorem parse_unknown_args_leading_tokens (pre rest : list string) :
  Forall (fun t => PyStr.startswith t "--" = false) pre ->
  Residual.parse_unknown_args (pre ++ rest) = Residual.parse_unknown_args rest.
Proof.
  intros Hpre. unfold Residual.parse_unknown_args.
  assert (Residual.loop Residual.init (pre ++ rest)
          = Residual.loop Residual.init rest) as ->; [|done].
  induction Hpre as [|t pre Ht _ IH]; [done|].
  simpl. rewrite (body_ignores Residual.init t Ht eq_refl). exact IH.
Qed.

Lemma parse_unknown_args_leading_tokens_witness :
  Residual.parse_unknown_args (["run.py"; "-v"] ++ ["--lr"; "0.1"])
  = Residual.parse_unknown_args ["--lr"; "0.1"].
Proof.
  apply (parse_unknown_args_leading_tokens ["run.py"; "-v"] ["--lr"; "0.1"]).
  repeat constructor.
Defined.

(** A bare key followed by a token that is no flag, at the end of any
    input, maps the key to that token, whatever came before: the last
    occurrence of a key wins. *)
Theorem parse_unknown_args_append_pair (args : list string) (f v : string) :
  PyStr.startswith f "--" = true ->
  PyStr.contains "=" f = false ->
  PyStr.startswith v "--" = false ->
  exists m,
    Residual.parse_unknown_args args = Return m
    /\ Residual.parse_unknown_args (args ++ [f; v])
       = Return (<[PyStr.slice_from 2 f := v]> m).
Proof.
  intros Hf He Hv. unfold Residual.parse_unknown_args. rewrite loop_app.
  destruct (loop_keeps_key_bound args _ key_bound_init) as (st & -> & _).
  eexists. split; [reflexivity|]. simpl.
  rewrite (body_bare_flag _ _ Hf He).
  unfold Residual.body. rewrite Hv. reflexivity.
Qed.

Lemma parse_unknown_args_append_pair_witness :
  exists m,
    Residual.parse_unknown_args ["--k"; "1"] = Return m
    /\ Residual.parse_unknown_args (["--k"; "1"] ++ ["--k"; "2"])
       = Return (<["k" := "2"]> m).
Proof.
  exact (parse_unknown_args_append_pair ["--k"; "1"] "--k" "2"
           eq_refl eq_refl eq_refl).
Defined.

(** A bare key at the very end has no value to take and leaves the result
    as it was. *)
Theorem parse_unknown_args_trailing_key (args : list string) (f : string) :
  PyStr.startswith f "--" = true ->
  PyStr.contains "=" f = false ->
  Residual.parse_unknown_args (args ++ [f])
  = Residual.parse_unknown_args args.
Proof.
  intros Hf He. unfold Residual.parse_unknown_args. rewrite loop_app.
  destruct (Residual.loop Residual.init args) as [st|e]; [|done].
  simpl. by rewrite (body_bare_flag _ _ Hf He).
Qed.

Lemma parse_unknown_args_trailing_key_witness :
  Residual.parse_unknown_args (["--x"; "1"] ++ ["--z"])
  = Residual.parse_unknown_args ["--x"; "1"].
Proof.
  exact (parse_unknown_args_trailing_key ["--x"; "1"] "--z" eq_refl eq_refl).
Defined.

(** A [--key=value] token at the end of any input maps its key to the text
    between its first and its second [=]; when the text right of the first
    [=] holds no further [=], that is the whole remainder. *)
Theorem parse_unknown_args_append_assignment (args : list string)
    (t : string) :
  PyStr.startswith t "--" = true ->
  PyStr.contains "=" t = true ->
  exists m,
    Residual.parse_unknown_args args = Return m
    /\ Residual.parse_unknown_args (args ++ [t])
       = Return (<[flag_key t := flag_value t]> m)
    /\ (PyStr.contains "=" (PyStr.after "=" t) = false ->
        flag_value t = PyStr.after "=" t).
Proof.
  intros Hf He. unfold Residual.parse_unknown_args. rewrite loop_app.
  destruct (loop_keeps_key_bound args _ key_bound_init) as (st & -> & _).
  eexists. split; [reflexivity|]. split.
  - simpl. by rewrite (body_key_value _ _ Hf He).
  - intros Hno. by apply before_all.
Qed.

Lemma parse_unknown_args_append_assignment_witness :
  exists m,
    Residual.parse_unknown_args ["--a"; "1"] = Return m
    /\ Residual.parse_unknown_args (["--a"; "1"] ++ ["--lr=3e-4"])
       = Return (<["lr" := "3e-4"]> m)
    /\ (PyStr.contains "=" (PyStr.after "=" "--lr=3e-4") = false ->
        flag_value "--lr=3e-4" = PyStr.after "=" "--lr=3e-4").
Proof.
  exact (parse_unknown_args_append_assignment ["--a"; "1"] "--lr=3e-4"
           eq_refl eq_refl).
Defined.

(** Of two neighbouring tokens that are no flags, the second is dropped:
    a key takes one value at most. *)
Theorem parse_unknown_args_second_value_dropped (a b : list string)
    (u v : string) :
  PyStr.startswith u "--" = false ->
  PyStr.startswith v "--" = false ->
  Residual.parse_unknown_args (a ++ u :: v :: b)
  = Residual.parse_unknown_args (a ++ u :: b).
Proof.
  intros Hu Hv. unfold Residual.parse_unknown_args. rewrite !loop_app.
  destruct (loop_keeps_key_bound a _ key_bound_init) as (st & -> & Hb).
  simpl.
  destruct (body_positional _ _ Hu Hb) as (st' & -> & Hp).
  by rewrite (body_ignores _ _ Hv Hp).
Qed.

Lemma parse_unknown_args_second_value_dropped_witness :
  Residual.parse_unknown_args (["--k"] ++ "1" :: "2" :: ["--j"; "3"])
  = Residual.parse_unknown_args (["--k"] ++ "1" :: ["--j"; "3"]).
Proof.
  exact (parse_unknown_args_second_value_dropped ["--k"] ["--j"; "3"] "1" "2"
           eq_refl eq_refl).
Defined.

Lemma from_tokens_more (seen more : list string) (k v : string) :
  from_tokens seen k v -> from_tokens (seen ++ more) k v.
Proof.
  intros [(t & Ht & Hf & Hk) Hv]. split.
  - exists t. rewrite elem_of_app. auto.
  - destruct Hv as [[Hin Hnf]|(t' & Ht' & Hf' & He' & Hv')].
    + left. rewrite elem_of_app. auto.
    + right. exists t'. rewrite elem_of_app. auto.
Qed.

Lemma entries_from_more (seen more : list string) (st : Residual.Locals) :
  entries_from seen st -> entries_from (seen ++ more) st.
Proof.
  intros [Hr Hk]. split.
  - intros k v Hkv. apply from_tokens_more. by apply Hr.
  - intros k Hkey. destruct (Hk k Hkey) as (t & Ht & Hf & ->).
    exists t. rewrite elem_of_app. auto.
Qed.

Lemma body_entries_from (seen : list string) (st st' : Residual.Locals)
    (arg : string) :
  entries_from seen st ->
  Residual.body st arg = Return st' ->
  entries_from (seen ++ [arg]) st'.
Proof.
  intros Hinv Hbody.
  assert (arg ∈ (seen ++ [arg])%list) as Hin
    by (rewrite elem_of_app; set_solver).
  pose proof (entries_from_more seen [arg] st Hinv) as [Hr Hk].
  destruct (PyStr.startswith arg "--") eqn:Hf.
  - destruct (PyStr.contains "=" arg) eqn:He.
    + rewrite (body_key_value _ _ Hf He) in Hbody.
      injection Hbody as <-. split; simpl.
      * intros k v Hkv. fold (flag_key arg) (flag_value arg) in Hkv.
        destruct (decide (flag_key arg = k)) as [<-|Hne].
        -- rewrite lookup_insert_eq in Hkv. injection Hkv as <-.
           split; [by exists arg|]. right. by exists arg.
        -- rewrite lookup_insert_ne in Hkv by done. by apply Hr.
      * intros k [= <-]. by exists arg.
    + rewrite (body_bare_flag _ _ Hf He) in Hbody.
      injection Hbody as <-. split; simpl; [exact Hr|].
      intros k [= <-]. exists arg. split; [done|]. split; [done|].
      unfold flag_key. apply before_all in He. by rewrite He.
  - unfold Residual.body in Hbody. rewrite Hf in Hbody.
    destruct (Residual.preceded_by_key st).
    + destruct (Residual.key st) as [k0|] eqn:Hkey; [|discriminate Hbody].
      injection Hbody as <-. split; simpl.
      * intros k v Hkv.
        destruct (decide (k0 = k)) as [<-|Hne].
        -- rewrite lookup_insert_eq in Hkv. injection Hkv as <-.
           split; [by apply Hk|]. by left.
        -- rewrite lookup_insert_ne in Hkv by done. by apply Hr.
      * intros k Hk'. apply Hk. congruence.
    + injection Hbody as <-. by split.
Qed.

Lemma loop_entries_from (args seen : list string)
    (st st' : Residual.Locals) :
  entries_from seen st ->
  Residual.loop st args = Return st' ->
  entries_from (seen ++ args) st'.
Proof.
  revert seen st. induction args as [|arg rest IH]; intros seen st Hinv Hloop.
  - simpl in Hloop. injection Hloop as <-. by rewrite app_nil_r.
  - simpl in Hloop. destruct (Residual.body st arg) as [st1|] eqn:Hbody;
      [|discriminate Hloop].
    replace (seen ++ arg :: rest)%list with ((seen ++ [arg]) ++ rest)%list
      by (by rewrite <- app_assoc).
    eapply IH; [|exact Hloop]. by eapply body_entries_from.
Qed.

(** The parser invents nothing: every key of the result is named by a flag
    token of the input, and every value is a token of the input that is no
    flag or the value piece of one of its [--key=value] tokens. *)
Theorem parse_unknown_args_entries_from_tokens (args : list string) :
  exists m,
    Residual.parse_unknown_args args = Return m
    /\ forall k v, m !! k = Some v -> from_tokens args k v.
Proof.
  unfold Residual.parse_unknown_args.
  destruct (loop_keeps_key_bound args _ key_bound_init) as (st & Hloop & _).
  rewrite Hloop. eexists. split; [reflexivity|].
  assert (entries_from [] Residual.init) as Hinit.
  { split; [intros k v Hkv | intros k Hk]; simpl in *; [|discriminate Hk].
    by rewrite lookup_empty in Hkv. }
  pose proof (loop_entries_from args [] _ _ Hinit Hloop) as [Hr _].
  exact Hr.
Qed.

(** ** Further properties of the environment factory *)

(** The layers of a handle [make_env] returns, inside out: the family's
    environment, the flattening adapter when asked for and the observations
    are dictionary-shaped, the monitor, the family's bundle, the reward
    scaler when the scale is not 1. The seed goes to the handle beneath
    the monitor. *)
Theorem make_env_layers (w : World) (env_id env_type : string) (subrank : Z)
    (seed : option Z) (reward_scale : float) (gamestate : option string)
    (fdo : bool) (wrapper_kwargs : option Kwargs)
    (tr : list Event) (e : Env) :
  make_env w env_id env_type subrank seed reward_scale gamestate fdo
    wrapper_kwargs = (tr, Return e) ->
  let inner := flattened_of w fdo (base_of env_id env_type gamestate) in
  let mon := Monitor inner (monitor_filename w (rank_or_zero w) subrank)
               (Some true) None in
  e = scaled_of reward_scale
        (post_of env_type (kwargs_or_empty wrapper_kwargs) mon)
  /\ Ev_seed inner (offset_seed seed subrank) ∈ tr
  /\ seed_calls tr = [offset_seed seed subrank].
Proof.
  intros H inner mon. apply make_env_Return in H as [-> ->].
  split; [reflexivity|]. split; [|apply seed_calls_events_of].
  unfold events_of. rewrite elem_of_app. right. apply elem_of_cons. by left.
Qed.

Lemma make_env_layers_witness :
  exists tr,
    make_env logged_world "PongNoFrameskip-v4" "atari" 1 (Some 5) 0.5%float
      None false None
    = (tr,
       Return (RewardScaler
                 (wrap_deepmind
                    (Monitor (make_atari "PongNoFrameskip-v4")
                       (Some "/tmp/log/3.1") (Some true) None) ∅)
                 0.5%float))
    /\ seed_calls tr = [Some 6].
Proof.
  eexists. split; [vm_compute; reflexivity|].
  exact (proj2 (proj2 (make_env_layers logged_world "PongNoFrameskip-v4"
                         "atari" 1 (Some 5) 0.5%float None false None _ _
                         eq_refl))).
Defined.

(** When [make_env] returns, the import of [retro] has succeeded if the
    family is retro, and so has every constructor call on the way to the
    handle: a failing import or constructor is never passed over. *)
Theorem make_env_returned_constructed (w : World) (env_id env_type : string)
    (subrank : Z) (seed : option Z) (reward_scale : float)
    (gamestate : option string) (fdo : bool)
    (wrapper_kwargs : option Kwargs) (tr : list Event) (e : Env) :
  make_env w env_id env_type subrank seed reward_scale gamestate fdo
    wrapper_kwargs = (tr, Return e) ->
  (env_type = "retro" -> retro_installed w = true)
  /\ forall env,
       Ev_new env ∈ events_of w env_id env_type subrank seed reward_scale
                      gamestate fdo wrapper_kwargs ->
       constructs w env = true.
Proof.
  intros H. split.
  - intros ->. unfold make_env in H. simpl String.eqb in H. cbv iota in H.
    destruct (retro_installed w); [reflexivity|].
    unfold raise, mbind, M_bind in H. discriminate H.
  - pose proof (make_env_Return _ _ _ _ _ _ _ _ _ _ _ H) as [_ Htr].
    rewrite <- Htr. clear Htr.
    unfold make_env, new, raise, emit in H.
    unfold mbind, M_bind, mret, M_ret in H.
    repeat (case_match; simplify_eq/=); intros env Hin;
      repeat (apply elem_of_cons in Hin as [Hin|Hin];
              [try discriminate Hin; injection Hin as ->; assumption|]);
      by apply elem_of_nil in Hin.
Qed.

Lemma make_env_returned_constructed_witness :
  exists tr e,
    make_env logged_world "SonicTheHedgehog-Genesis" "retro" 0 (Some 1)
      0.5%float None true None = (tr, Return e)
    /\ retro_installed logged_world = true
    /\ constructs logged_world
         (make_retro "SonicTheHedgehog-Genesis" 10000 DISCRETE State_DEFAULT)
       = true.
Proof.
  eexists _, _. split; [vm_compute; reflexivity|].
  destruct (make_env_returned_constructed logged_world
              "SonicTheHedgehog-Genesis" "retro" 0 (Some 1) 0.5%float None
              true None _ _ eq_refl) as [Hretro Hall].
  split; [exact (Hretro eq_refl)|].
  apply Hall. vm_compute. apply elem_of_cons. by left.
Defined.

(** When [make_env] raises, what it did before is a proper beginning of
    what the call would have done had nothing raised: a failure is
    surfaced at once, nothing is skipped or retried. *)
Theorem make_env_raise_prefix (w : World) (env_id env_type : string)
    (subrank : Z) (seed : option Z) (reward_scale : float)
    (gamestate : option string) (fdo : bool)
    (wrapper_kwargs : option Kwargs) (tr : list Event) (ex : Exception) :
  make_env w env_id env_type subrank seed reward_scale gamestate fdo
    wrapper_kwargs = (tr, Raise ex) ->
  exists next rest,
    events_of w env_id env_type subrank seed reward_scale gamestate fdo
      wrapper_kwargs = (tr ++ next :: rest)%list.
Proof.
  unfold make_env, events_of, events_before_seed, events_after_monitor,
    monitored_of, seeded_of, post_of, flattened_of, base_of, new, raise, emit.
  unfold mbind, M_bind, mret, M_ret.
  intros H.
  repeat (case_match; simplify_eq/=); by eexists _, _.
Qed.

Lemma make_env_raise_prefix_witness :
  make_env no_monitor_world "Reacher-v2" "mujoco" 0 (Some 1) 1%float None true
    None
  = ([Ev_new (gym_make "Reacher-v2"); Ev_seed (gym_make "Reacher-v2") (Some 1)],
     Raise (EnvError "constructor raised"))
  /\ exists next rest,
       events_of no_monitor_world "Reacher-v2" "mujoco" 0 (Some 1) 1%float
         None true None
       = ([Ev_new (gym_make "Reacher-v2");
           Ev_seed (gym_make "Reacher-v2") (Some 1)] ++ next :: rest)%list.
Proof.
  split; [reflexivity|].
  exact (make_env_raise_prefix no_monitor_world "Reacher-v2" "mujoco" 0
           (Some 1) 1%float None true None _ _ eq_refl).
Defined.

(** For the retro family without the [retro] package, [make_env] raises
    the import error before anything is constructed or seeded. *)
Theorem make_env_retro_import (w : World) (env_id env_type : string)
    (subrank : Z) (seed : option Z) (reward_scale : float)
    (gamestate : option string) (fdo : bool)
    (wrapper_kwargs : option Kwargs) :
  retro_installed w = false ->
  env_type = "retro" ->
  exists msg,
    make_env w env_id env_type subrank seed reward_scale gamestate fdo
      wrapper_kwargs = ([], Raise (ImportError msg)).
Proof.
  intros Hretro ->. unfold make_env. simpl String.eqb. cbv iota.
  rewrite Hretro. eexists. reflexivity.
Qed.

Lemma make_env_retro_import_witness :
  retro_installed no_retro_world = false
  /\ exists msg,
       make_env no_retro_world "SonicTheHedgehog-Genesis" "retro" 0 None
         1%float None true None = ([], Raise (ImportError msg)).
Proof.
  split; [reflexivity|].
  exact (make_env_retro_import no_retro_world "SonicTheHedgehog-Genesis"
           "retro" 0 None 1%float None true None eq_refl eq_refl).
Defined.

(** ** Further properties of the vectorized builder *)

(** [str] of an integer determines the integer. *)
Lemma of_int_inj (a b : Z) : PyStr.of_int a = PyStr.of_int b -> a = b.
Proof.
  assert (forall z, Z.to_int z <> Decimal.Pos Decimal.Nil
                    /\ Z.to_int z <> Decimal.Neg Decimal.Nil) as Hnn.
  { intros [|p|p]; simpl; split; try discriminate;
      intros [= H]; by apply DecimalPos.Unsigned.to_uint_nonnil in H. }
  unfold PyStr.of_int. intros H.
  apply (f_equal NilZero.int_of_string) in H.
  destruct (Hnn a) as [Ha1 Ha2]. destruct (Hnn b) as [Hb1 Hb2].
  rewrite !NilZero.isi in H by assumption.
  injection H as H. by apply DecimalZ.to_int_inj.
Qed.

(** What [make_vec_env] does and returns, closure by closure. *)
Lemma make_vec_env_closures (w : World) (env_id env_type : string)
    (num_env : Z) (seed : option Z) (wrapper_kwargs : option Kwargs)
    (start_index : Z) (reward_scale : float) (fdo : bool)
    (gamestate : option string) :
  let seed' := offset_seed seed (10000 * rank_or_zero w) in
  exists v,
    make_vec_env w env_id env_type num_env seed wrapper_kwargs start_index
      reward_scale fdo gamestate = ([Ev_set_global_seeds seed'], Return v)
    /\ Z.of_nat (length (env_fns v)) = Z.max 1 num_env
    /\ forall (i : nat) th, env_fns v !! i = Some th ->
         Z.of_nat i < Z.max 1 num_env
         /\ th = {| th_env_id := env_id;
                    th_env_type := env_type;
                    th_subrank := start_index + Z.of_nat i;
                    th_seed := seed';
                    th_reward_scale := reward_scale;
                    th_gamestate := gamestate;
                    th_flatten_dict_observations := fdo;
                    th_wrapper_kwargs := kwargs_or_empty wrapper_kwargs |}.
Proof.
  intros seed'. unfold make_vec_env. fold seed'.
  destruct (1 <? num_env) eqn:Hmode; simpl.
  - apply Z.ltb_lt in Hmode. eexists. split; [reflexivity|]. simpl. split.
    { rewrite length_map, range_length. lia. }
    intros i th Hth.
    match type of Hth with map ?f ?l !! _ = _ =>
      change (map f l) with (f <$> l) in Hth end.
    rewrite list_lookup_fmap in Hth.
    destruct (range num_env !! i) as [z|] eqn:Hz; [|discriminate Hth].
    assert (Z.of_nat i < num_env) as Hi.
    { apply lookup_lt_Some in Hz. rewrite range_length in Hz. lia. }
    rewrite (range_lookup _ _ Hi) in Hz. injection Hz as <-.
    simpl in Hth. injection Hth as <-. split; [lia|].
    f_equal. lia.
  - apply Z.ltb_ge in Hmode. eexists. split; [reflexivity|]. simpl. split.
    { lia. }
    intros [|i] th Hth; [|discriminate Hth].
    simpl in Hth. injection Hth as <-. split; [lia|].
    f_equal. lia.
Qed.



(** At any rank, [make_vec_env] seeds the global generators with
    [seed + 10000 * rank] and replica [i] with
    [seed + 10000 * rank + start_index + i]. *)
Theorem make_vec_env_rank_seeds (w : World) (env_id env_type : string)
    (num_env : Z) (s : Z) (wrapper_kwargs : option Kwargs)
    (start_index : Z) (reward_scale : float) (fdo : bool)
    (gamestate : option string) (i : nat) (th : Thunk)
    (tr : list Event) (e : Env) :
  let r := make_vec_env w env_id env_type num_env (Some s) wrapper_kwargs
             start_index reward_scale fdo gamestate in
  (exists v, r.2 = Return v /\ env_fns v !! i = Some th) ->
  call w th = (tr, Return e) ->
  global_seed_calls r.1 = [Some (s + 10000 * rank_or_zero w)]
  /\ seed_calls tr
     = [Some (s + 10000 * rank_or_zero w + start_index + Z.of_nat i)].
Proof.
  intros r (v & Hv & Hth) Hcall. subst r.
  destruct (make_vec_env_closures w env_id env_type num_env (Some s)
              wrapper_kwargs start_index reward_scale fdo gamestate)
    as (v' & Heq & _ & Hfns).
  rewrite Heq in Hv |- *. injection Hv as <-.
  split; [reflexivity|].
  destruct (Hfns i th Hth) as [_ ->].
  unfold call in Hcall. simpl in Hcall.
  apply make_env_Return in Hcall as [_ ->].
  rewrite seed_calls_events_of. simpl. do 2 f_equal. lia.
Qed.

Lemma make_vec_env_rank_seeds_witness :
  exists tr e,
    call logged_world sample_thunk = (tr, Return e)
    /\ global_seed_calls
         (make_vec_env logged_world "Reacher-v2" "mujoco" 2 (Some 7) None 0
            1%float true None).1 = [Some 30007]
    /\ seed_calls tr = [Some 30008].
Proof.
  eexists _, _. split; [vm_compute; reflexivity|].
  destruct (make_vec_env_rank_seeds logged_world "Reacher-v2" "mujoco" 2 7
              None 0 1%float true None 1 sample_thunk _ _
              (ex_intro _ _ (conj eq_refl eq_refl)) eq_refl) as [Hg Hs].
  split; [exact Hg | exact Hs].
Defined.

(** Two builders run at different ranks with the same arguments and a
    seed that is not null hand out different seeds to all their replicas,
    as long as there are at most 10000 replicas: the offset
    [10000 * rank] keeps the groups apart. (With a null seed every
    replica at every rank is seeded with no value.) *)
Theorem make_vec_env_seeds_disjoint (w1 w2 : World)
    (env_id env_type : string) (num_env : Z) (s : Z)
    (wrapper_kwargs : option Kwargs) (start_index : Z)
    (reward_scale : float) (fdo : bool) (gamestate : option string)
    (v1 v2 : VecEnv) (th1 th2 : Thunk) (tr1 tr2 : list Event) (e1 e2 : Env) :
  rank_or_zero w1 <> rank_or_zero w2 ->
  num_env <= 10000 ->
  (make_vec_env w1 env_id env_type num_env (Some s) wrapper_kwargs
     start_index reward_scale fdo gamestate).2 = Return v1 ->
  (make_vec_env w2 env_id env_type num_env (Some s) wrapper_kwargs
     start_index reward_scale fdo gamestate).2 = Return v2 ->
  th1 ∈ env_fns v1 ->
  th2 ∈ env_fns v2 ->
  call w1 th1 = (tr1, Return e1) ->
  call w2 th2 = (tr2, Return e2) ->
  seed_calls tr1 <> seed_calls tr2.
Proof.
  intros Hrank HN Hv1 Hv2 Hin1 Hin2 Hc1 Hc2.
  destruct (make_vec_env_closures w1 env_id env_type num_env (Some s)
              wrapper_kwargs start_index reward_scale fdo gamestate)
    as (v1' & Heq1 & _ & Hfns1).
  destruct (make_vec_env_closures w2 env_id env_type num_env (Some s)
              wrapper_kwargs start_index reward_scale fdo gamestate)
    as (v2' & Heq2 & _ & Hfns2).
  rewrite Heq1 in Hv1. rewrite Heq2 in Hv2.
  injection Hv1 as ->. injection Hv2 as ->.
  apply list_elem_of_lookup in Hin1 as [i Hi].
  apply list_elem_of_lookup in Hin2 as [j Hj].
  destruct (Hfns1 i th1 Hi) as [Hi' ->].
  destruct (Hfns2 j th2 Hj) as [Hj' ->].
  unfold call in Hc1, Hc2. simpl in Hc1, Hc2.
  apply make_env_Return in Hc1 as [_ ->].
  apply make_env_Return in Hc2 as [_ ->].
  rewrite !seed_calls_events_of. simpl. intros [= Heq]. lia.
Qed.

Lemma make_vec_env_seeds_disjoint_witness :
  exists v1 v2 th1 th2 tr1 tr2 e1 e2,
    (make_vec_env plain_world "Reacher-v2" "mujoco" 2 (Some 7) None 0 1%float
       true None).2 = Return v1
    /\ (make_vec_env logged_world "Reacher-v2" "mujoco" 2 (Some 7) None 0
          1%float true None).2 = Return v2
    /\ env_fns v1 !! 1%nat = Some th1
    /\ env_fns v2 !! 0%nat = Some th2
    /\ call plain_world th1 = (tr1, Return e1)
    /\ call logged_world th2 = (tr2, Return e2)
    /\ seed_calls tr1 <> seed_calls tr2.
Proof.
  eexists _, _, _, _, _, _, _, _.
  split; [reflexivity|]. split; [reflexivity|].
  split; [reflexivity|]. split; [reflexivity|].
  split; [vm_compute; reflexivity|]. split; [vm_compute; reflexivity|].
  eapply (make_vec_env_seeds_disjoint plain_world logged_world "Reacher-v2"
            "mujoco" 2 7 None 0 1%float true None);
    [discriminate | lia | reflexivity | reflexivity
     | apply list_elem_of_lookup; by exists 1%nat
     | apply list_elem_of_lookup; by exists 0%nat
     | vm_compute; reflexivity | vm_compute; reflexivity].
Defined.

Lemma monitor_files_handle_of (w : World) (env_id env_type : string)
    (subrank : Z) (reward_scale : float) (gamestate : option string)
    (fdo : bool) (wrapper_kwargs : option Kwargs) (d : string) :
  logger_get_dir w = Some d ->
  d <> "" ->
  monitor_files (handle_of w env_id env_type subrank reward_scale gamestate
                   fdo wrapper_kwargs)
  = [d ++ (if PyStr.endswith_char "/" d then "" else "/")
       ++ PyStr.of_int (rank_or_zero w) ++ "." ++ PyStr.of_int subrank].
Proof.
  intros Hdir Hd. unfold monitor_files.
  rewrite monitor_filenames_handle_of. unfold monitor_filename.
  rewrite Hdir. destruct d as [|a d]; [done|]. simpl PyStr.truthy. cbv iota.
  by rewrite os_path_join_name.
Qed.

(** With a log directory configured, two different replicas of one
    builder are given different monitor files. *)
Theorem make_vec_env_monitor_files_distinct (w : World)
    (env_id env_type : string) (num_env : Z) (seed : option Z)
    (wrapper_kwargs : option Kwargs) (start_index : Z)
    (reward_scale : float) (fdo : bool) (gamestate : option string)
    (v : VecEnv) (i j : nat) (thi thj : Thunk) (tri trj : list Event)
    (ei ej : Env) (d : string) :
  logger_get_dir w = Some d ->
  d <> "" ->
  (make_vec_env w env_id env_type num_env seed wrapper_kwargs start_index
     reward_scale fdo gamestate).2 = Return v ->
  env_fns v !! i = Some thi ->
  env_fns v !! j = Some thj ->
  i <> j ->
  call w thi = (tri, Return ei) ->
  call w thj = (trj, Return ej) ->
  monitor_files ei <> monitor_files ej.
Proof.
  intros Hdir Hd Hv Hi Hj Hij Hci Hcj.
  destruct (make_vec_env_closures w env_id env_type num_env seed
              wrapper_kwargs start_index reward_scale fdo gamestate)
    as (v' & Heq & _ & Hfns).
  rewrite Heq in Hv. injection Hv as ->.
  destruct (Hfns i thi Hi) as [_ ->]. destruct (Hfns j thj Hj) as [_ ->].
  unfold call in Hci, Hcj. simpl in Hci, Hcj.
  apply make_env_Return in Hci as [-> _].
  apply make_env_Return in Hcj as [-> _].
  rewrite !(monitor_files_handle_of _ _ _ _ _ _ _ _ d Hdir Hd).
  intros [= Heq'].
  repeat (apply String.app_inj in Heq').
  apply of_int_inj in Heq'. lia.
Qed.

Lemma make_vec_env_monitor_files_distinct_witness :
  exists v thi thj tri trj ei ej,
    (make_vec_env logged_world "Reacher-v2" "mujoco" 2 (Some 7) None 0
       1%float true None).2 = Return v
    /\ env_fns v !! 0%nat = Some thi
    /\ env_fns v !! 1%nat = Some thj
    /\ call logged_world thi = (tri, Return ei)
    /\ call logged_world thj = (trj, Return ej)
    /\ monitor_files ei = ["/tmp/log/3.0"]
    /\ monitor_files ej = ["/tmp/log/3.1"]
    /\ monitor_files ei <> monitor_files ej.
Proof.
  eexists _, _, _, _, _, _, _.
  split; [reflexivity|]. split; [reflexivity|]. split; [reflexivity|].
  split; [vm_compute; reflexivity|]. split; [vm_compute; reflexivity|].
  split; [reflexivity|]. split; [reflexivity|].
  eapply (make_vec_env_monitor_files_distinct logged_world "Reacher-v2"
            "mujoco" 2 (Some 7) None 0 1%float true None _ 0%nat 1%nat);
    [reflexivity | discriminate | reflexivity | reflexivity | reflexivity
     | discriminate | vm_compute; reflexivity | vm_compute; reflexivity].
Defined.

(** ** The single-environment builders *)

(** When [make_mujoco_env] returns, the distributed library is there and
    the constructor calls have succeeded. The handle is the monitored
    environment, under a scaler when the scale is not 1.0; the monitor file
    is [<rank>] in the log directory; the generators are seeded first, and
    the environment is seeded through its monitor, before the scaler is
    put on. *)
Theorem make_mujoco_env_returned (w : World) (env_id : string)
    (seed : option Z) (reward_scale : float) (tr : list Event) (e : Env) :
  make_mujoco_env w env_id seed reward_scale = (tr, Return e) ->
  exists rank,
    let mon := Monitor (gym_make env_id)
                 (match logger_get_dir w with
                  | None => None
                  | Some d => Some (os_path_join d (PyStr.of_int rank))
                  end) (Some true) None in
    MPI w = Some rank
    /\ constructs w (gym_make env_id) = true
    /\ constructs w mon = true
    /\ (ne_one reward_scale = true ->
        constructs w (RewardScaler mon reward_scale) = true)
    /\ e = scaled_of reward_scale mon
    /\ tr = ([Ev_set_global_seeds (offset_seed seed (1000 * rank));
              Ev_new (gym_make env_id); Ev_new mon; Ev_seed mon seed]
             ++ if ne_one reward_scale
                then [Ev_new (RewardScaler mon reward_scale)] else [])%list.
Proof.
  unfold make_mujoco_env, Get_rank, scaled_of, ne_one, new, raise, emit.
  unfold mbind, M_bind, mret, M_ret.
  intros H. repeat (case_match; simplify_eq/=); eexists; by repeat split.
Qed.

Lemma make_mujoco_env_returned_witness :
  exists tr e rank,
    make_mujoco_env logged_world "Hopper-v2" (Some 42) 2%float
    = (tr, Return e)
    /\ MPI logged_world = Some rank
    /\ e = RewardScaler
             (Monitor (gym_make "Hopper-v2") (Some "/tmp/log/3") (Some true)
                None) 2%float
    /\ seed_calls tr = [Some 42]
    /\ global_seed_calls tr = [Some 3042].
Proof.
  eexists _, _, _. split; [vm_compute; reflexivity|].
  destruct (make_mujoco_env_returned logged_world "Hopper-v2" (Some 42)
              2%float _ _ eq_refl) as (rank & Hmpi & _ & _ & _ & He & Htr).
  injection Hmpi as <-.
  split; [reflexivity|]. split; [exact He|]. split; reflexivity.
Defined.

(** When [make_robotics_env] returns, its three constructor calls have
    succeeded; the distributed library is not consulted. The handle is the
    monitor over the flattening of [observation] and [desired_goal]; the
    global generators and the environment get the very same seed, the
    environment through its monitor. *)
Theorem make_robotics_env_returned (w : World) (env_id : string)
    (seed : option Z) (rank : Z) (tr : list Event) (e : Env) :
  make_robotics_env w env_id seed rank = (tr, Return e) ->
  let flat := FlattenDictWrapper (gym_make env_id)
                ["observation"; "desired_goal"] in
  let mon := Monitor flat (robotics_monitor_filename w rank) None
               (Some ["is_success"]) in
  constructs w (gym_make env_id) = true
  /\ constructs w flat = true
  /\ constructs w mon = true
  /\ e = mon
  /\ tr = [Ev_set_global_seeds seed; Ev_new (gym_make env_id); Ev_new flat;
           Ev_new mon; Ev_seed mon seed].
Proof.
  unfold make_robotics_env, new, raise, emit.
  unfold mbind, M_bind, mret, M_ret.
  intros H. repeat (case_match; simplify_eq/=). by repeat split.
Qed.

Lemma make_robotics_env_returned_witness :
  exists tr e,
    make_robotics_env plain_world "FetchReach-v0" (Some 9) 0 = (tr, Return e)
    /\ e = Monitor (FlattenDictWrapper (gym_make "FetchReach-v0")
                     ["observation"; "desired_goal"])
             None None (Some ["is_success"])
    /\ global_seed_calls tr = [Some 9]
    /\ seed_calls tr = [Some 9].
Proof.
  eexists _, _. split; [vm_compute; reflexivity|].
  destruct (make_robotics_env_returned plain_world "FetchReach-v0" (Some 9) 0
              _ _ eq_refl) as (_ & _ & _ & He & Htr).
  split; [exact He|]. split; reflexivity.
Defined.
